(** * Brute-force guards of the bank payment API

    Embedding of [middleware/brute.js]: the mongoose schema of the attempt
    records, the single store built over it, the four [ExpressBrute] guards
    with their options and callbacks, and the guard contract (attempt store,
    backoff policy, fail-open error policy) the guards are used under.

    Times are JavaScript timestamps: integer milliseconds, as [Z].
    [minWait]/[maxWait] are milliseconds and [lifetime] is seconds, as the
    option comments of the module say. *)

From Stdlib Require Import ZArith String List Lia Bool.
From Stdlib Require Import DecimalString DecimalZ DecimalPos.
From stdpp Require Import base gmap strings.

Open Scope Z_scope.

(** ** JavaScript values and the Express response *)

Inductive JsValue :=
| JsBool (b : bool)
| JsNumber (n : Z)
| JsString (s : string)
| JsDate (ms : Z).

(** An object literal: its properties in the order they are written. *)
Definition JsObject := list (string * JsValue).

Fixpoint field (name : string) (o : JsObject) : option JsValue :=
  match o with
  | [] => None
  | (k, v) :: rest => if String.eqb k name then Some v else field name rest
  end.

(** Template-literal rendering of an integral number. *)
Definition number_to_string (n : Z) : string :=
  NilZero.string_of_int (Z.to_int n).

(** [Math.ceil(a / b)] for an integer [a] and a positive integer [b]. *)
Definition ceil_div (a b : Z) : Z := - ((- a) / b).

(** The request is never read by the callbacks of this module. *)
Record Request := { ip : string; path : string }.

Record Response := {
  statusCode : Z;
  jsonBody : option JsObject
}.

(** [res.status(code)] returns the response, for chaining. *)
Definition res_status (code : Z) (res : Response) : Response :=
  {| statusCode := code; jsonBody := jsonBody res |}.

(** [res.json(body)] sends the body. *)
Definition res_json (body : JsObject) (res : Response) : Response :=
  {| statusCode := statusCode res; jsonBody := Some body |}.

(** What a middleware callback can act on: the response and [next]. *)
Record Exchange := {
  res : Response;
  nextCalls : nat
}.

Definition call_next (ex : Exchange) : Exchange :=
  {| res := res ex; nextCalls := S (nextCalls ex) |}.

Definition respond (f : Response -> Response) (ex : Exchange) : Exchange :=
  {| res := f (res ex); nextCalls := nextCalls ex |}.

(** ** Store errors, the process environment and the console *)

Inductive StoreError :=
| BackendUnavailable
| StoreTimeout
| SerializationFailure.

Record ProcessEnv := {
  NODE_ENV : option string;
  CI : option string
}.

(** [process.env.X === s] *)
Definition env_is (v : option string) (s : string) : bool :=
  match v with
  | Some x => String.eqb x s
  | None => false
  end.

(** Truthiness of [process.env.X]: set and not the empty string. *)
Definition env_truthy (v : option string) : bool :=
  match v with
  | Some x => negb (String.eqb x "")
  | None => false
  end.

Record LogEntry := { label : string; cause : StoreError }.

Definition Console := list LogEntry.

Definition console_error (l : string) (e : StoreError) (c : Console) : Console :=
  c ++ [{| label := l; cause := e |}].

(** How a call ends: it returns a value or throws. *)
Inductive Completion (A : Type) :=
| Returned (a : A)
| Threw (e : StoreError).
Arguments Returned {A} a.
Arguments Threw {A} e.

Definition StoreErrorHandler :=
  StoreError -> ProcessEnv -> Console -> Completion unit * Console.

(** [failCallback(req, res, next, nextValidRequestDate)], with the value
    [Date.now()] has when the callback runs. *)
Definition FailCallback :=
  Request -> Exchange -> Z -> Z -> Exchange.

(** ** The schema, the model and the store *)

Record Schema := {
  paths : list (string * string);
  ttlField : string;
  ttlSeconds : Z
}.

(** ['1d'] of the index on [expires], in seconds. *)
Definition one_day_seconds : Z := 24 * 60 * 60.

Definition bruteForceSchema : Schema :=
  {| paths := [("_id", "String"); ("data.count", "Number");
               ("data.lastRequest", "Date"); ("data.firstRequest", "Date");
               ("expires", "Date")]%string;
     ttlField := "expires";
     ttlSeconds := one_day_seconds |}.

Record Model := { modelName : string; schema : Schema }.

Record MongooseStore := { model : Model }.

(** The part of the process the module reads and changes when it is loaded:
    the mongoose model registry ([mongoose.models], which may be undefined)
    and the store objects allocated so far; a store is referred to by its
    position in [stores]. *)
Record Runtime := {
  models : option (gmap string Model);
  stores : list MongooseStore
}.

Definition StoreRef := nat.

(** [mongoose.model(name, schema)] registers the model and returns it. *)
Definition mongoose_model (name : string) (s : Schema) (rt : Runtime)
  : Model * Runtime :=
  let m := {| modelName := name; schema := s |} in
  (m, {| models := Some (<[name := m]> (default ∅ (models rt)));
         stores := stores rt |}).

(** [new MongooseStore(model)] *)
Definition new_MongooseStore (m : Model) (rt : Runtime) : StoreRef * Runtime :=
  (length (stores rt),
   {| models := models rt; stores := stores rt ++ [{| model := m |}] |}).

(** ** Guards *)

Record Options := {
  freeRetries : Z;
  minWait : Z;
  maxWait : Z;
  lifetime : Z;
  failCallback : FailCallback;
  handleStoreError : option StoreErrorHandler
}.

Record ExpressBrute := {
  store : StoreRef;
  options : Options
}.

Definition new_ExpressBrute (s : StoreRef) (o : Options) : ExpressBrute :=
  {| store := s; options := o |}.

Definition loginFailCallback : FailCallback :=
  fun req ex nextValidRequestDate now =>
    let waitTime := ceil_div (nextValidRequestDate - now) (1000 * 60) in
    respond (fun r =>
      res_json
        [("success", JsBool false);
         ("message", JsString
            ("Too many failed login attempts. Please try again in "
               +:+ number_to_string waitTime +:+ " minute(s)."));
         ("nextValidRequestDate", JsDate nextValidRequestDate)]%string
        (res_status 429 r)) ex.

Definition loginHandleStoreError : StoreErrorHandler :=
  fun error env console =>
    let console := console_error "Express-brute store error:" error console in
    if env_is (NODE_ENV env) "test" || env_truthy (CI env)
    then (Returned tt, console)
    else (Returned tt, console).

Definition loginOptions : Options :=
  {| freeRetries := 5;
     minWait := 5 * 60 * 1000;
     maxWait := 60 * 60 * 1000;
     lifetime := 24 * 60 * 60;
     failCallback := loginFailCallback;
     handleStoreError := Some loginHandleStoreError |}.

Definition globalFailCallback : FailCallback :=
  fun req ex nextValidRequestDate now =>
    respond (fun r =>
      res_json
        [("success", JsBool false);
         ("message", JsString
            "Too many requests from this IP. Please slow down.")]%string
        (res_status 429 r)) ex.

Definition globalOptions : Options :=
  {| freeRetries := 100;
     minWait := 1 * 60 * 1000;
     maxWait := 15 * 60 * 1000;
     lifetime := 60 * 60;
     failCallback := globalFailCallback;
     handleStoreError := None |}.

Definition registrationFailCallback : FailCallback :=
  fun req ex nextValidRequestDate now =>
    let waitTime := ceil_div (nextValidRequestDate - now) (1000 * 60) in
    respond (fun r =>
      res_json
        [("success", JsBool false);
         ("message", JsString
            ("Too many registration attempts. Please try again in "
               +:+ number_to_string waitTime +:+ " minute(s)."))]%string
        (res_status 429 r)) ex.

Definition registrationOptions : Options :=
  {| freeRetries := 3;
     minWait := 10 * 60 * 1000;
     maxWait := 2 * 60 * 60 * 1000;
     lifetime := 24 * 60 * 60;
     failCallback := registrationFailCallback;
     handleStoreError := None |}.

Definition paymentFailCallback : FailCallback :=
  fun req ex nextValidRequestDate now =>
    respond (fun r =>
      res_json
        [("success", JsBool false);
         ("message", JsString
            "Payment creation rate limit exceeded. Please wait before creating another payment.")]%string
        (res_status 429 r)) ex.

Definition paymentOptions : Options :=
  {| freeRetries := 10;
     minWait := 5 * 60 * 1000;
     maxWait := 30 * 60 * 1000;
     lifetime := 60 * 60;
     failCallback := paymentFailCallback;
     handleStoreError := None |}.

(** The default export. *)
Record Exports := {
  loginBruteForce : ExpressBrute;
  globalBruteForce : ExpressBrute;
  registrationBruteForce : ExpressBrute;
  paymentBruteForce : ExpressBrute
}.

(** Evaluation of the module body, top to bottom. *)
Definition load_module (rt : Runtime) : Exports * Runtime :=
  let '(BruteForceModel, rt) :=
    match models rt with
    | Some ms =>
        match ms !! "BruteForce"%string with
        | Some m => (m, rt)
        | None => mongoose_model "BruteForce" bruteForceSchema rt
        end
    | None => mongoose_model "BruteForce" bruteForceSchema rt
    end in
  let '(store, rt) := new_MongooseStore BruteForceModel rt in
  ({| loginBruteForce := new_ExpressBrute store loginOptions;
      globalBruteForce := new_ExpressBrute store globalOptions;
      registrationBruteForce := new_ExpressBrute store registrationOptions;
      paymentBruteForce := new_ExpressBrute store paymentOptions |},
   rt).

Inductive Tier := Login | Global | Registration | Payment.

Definition guard_of (m : Exports) (t : Tier) : ExpressBrute :=
  match t with
  | Login => loginBruteForce m
  | Global => globalBruteForce m
  | Registration => registrationBruteForce m
  | Payment => paymentBruteForce m
  end.

Definition tier_options (t : Tier) : Options :=
  match t with
  | Login => loginOptions
  | Global => globalOptions
  | Registration => registrationOptions
  | Payment => paymentOptions
  end.

(** Durations, for reading the option values. *)
Definition minutes_ms (n : Z) : Z := n * 60 * 1000.
Definition hours_ms (n : Z) : Z := n * 60 * 60 * 1000.
Definition hours_s (n : Z) : Z := n * 60 * 60.

(** The numeric part of a tier's options. *)
Definition tier_numbers (o : Options) : Z * Z * Z * Z :=
  (freeRetries o, minWait o, maxWait o, lifetime o).

(** ** Attempt records and the attempt store *)

(** A document of the collection, as [bruteForceSchema] lays it out; the
    [_id] is the key it is stored under. *)
Record BruteForceData := {
  count : Z;
  lastRequest : Z;
  firstRequest : Z
}.

Record BruteForceDoc := {
  data : BruteForceData;
  expires : Z
}.

(** Modelled from the spec: the backend behind the AttemptStore, which is
    not part of this module (the module only constructs the store). It
    holds one record per key and may be unavailable, in which case every
    operation fails with a [StoreError]. *)
Record Backend := {
  collection : gmap string BruteForceDoc;
  outage : option StoreError
}.

Definition with_collection (c : gmap string BruteForceDoc) (b : Backend)
  : Backend :=
  {| collection := c; outage := outage b |}.

(** Modelled from the spec: AttemptStore.get, "get(key) -> AttemptRecord |
    absent -- fails with StoreError on backend unavailability". *)
Definition store_get (key : string) (b : Backend)
  : StoreError + option BruteForceDoc :=
  match outage b with
  | Some e => inl e
  | None => inr (collection b !! key)
  end.

(** Modelled from the spec: logical expiry, "a record with expiresAt <= now
    must never influence a decision (treated as absent)". *)
Definition live (now : Z) (r : option BruteForceDoc) : option BruteForceDoc :=
  match r with
  | Some d => if expires d <=? now then None else Some d
  | None => None
  end.

(** Modelled from the spec: AttemptStore.incrementAndGet, "atomically
    creates the record if absent (count=1, firstRequest=lastRequest=now,
    expiresAt=now+lifetime) or increments count and sets lastRequest=now if
    present and not expired; if present but expired, treats as absent and
    restarts the window". [lifetime] is in milliseconds here. *)
Definition incremented (now lifetime_ms : Z) (r : option BruteForceDoc)
  : BruteForceDoc :=
  match live now r with
  | None =>
      {| data := {| count := 1; lastRequest := now; firstRequest := now |};
         expires := now + lifetime_ms |}
  | Some d =>
      {| data := {| count := count (data d) + 1;
                    lastRequest := now;
                    firstRequest := firstRequest (data d) |};
         expires := expires d |}
  end.

Definition incrementAndGet (key : string) (now lifetime_ms : Z) (b : Backend)
  : StoreError + (BruteForceDoc * Backend) :=
  match outage b with
  | Some e => inl e
  | None =>
      let d := incremented now lifetime_ms (collection b !! key) in
      inr (d, with_collection (<[key := d]> (collection b)) b)
  end.

(** Modelled from the spec: AttemptStore.reset, "deletes the record". *)
Definition store_reset (key : string) (b : Backend) : StoreError + Backend :=
  match outage b with
  | Some e => inl e
  | None => inr (with_collection (delete key (collection b)) b)
  end.

(** Modelled from the spec: the time-to-live purge of the store ("expired
    records are eventually purged"), run by the database and not by this
    module. The module fixes its delay: the index on [expires] removes a
    document [ttlSeconds] after the date in that field. *)
Definition ttl_ms (s : Schema) : Z := ttlSeconds s * 1000.

Definition ttl_due (s : Schema) (now : Z) (d : BruteForceDoc) : bool :=
  expires d + ttl_ms s <=? now.

Definition ttl_sweep (s : Schema) (now : Z)
    (c : gmap string BruteForceDoc) : gmap string BruteForceDoc :=
  filter (fun kd => ttl_due s now (snd kd) = false) c.

(** ** The backoff policy *)

Inductive Verdict :=
| Allow
| Block (t : Z).

(** Modelled from the spec: the wait after [overage] failures beyond the
    free retries, "wait = min(maxWait, minWait * 2^(overage - 1))". *)
Definition wait (t : Options) (overage : Z) : Z :=
  Z.min (maxWait t) (minWait t * 2 ^ (overage - 1)).

(** Modelled from the spec: BackoffPolicy.decide, "decide(record, tier, now)
    -> Allow | Block(nextValidAt)". *)
Definition decide (record : option BruteForceDoc) (t : Options) (now : Z)
  : Verdict :=
  match record with
  | None => Allow
  | Some d =>
      if count (data d) <=? freeRetries t then Allow
      else
        let overage := count (data d) - freeRetries t in
        let nextValidAt := lastRequest (data d) + wait t overage in
        if nextValidAt <=? now then Allow else Block nextValidAt
  end.

(** Modelled from the spec: the configuration surface, "freeRetries:
    integer >= 0, minWait: positive duration, maxWait: duration >= minWait,
    lifetime: positive duration". *)
Definition valid_tier (t : Options) : Prop :=
  0 <= freeRetries t /\ 0 < minWait t /\ minWait t <= maxWait t
  /\ 0 < lifetime t.

(** ** The guard *)

Record World := {
  db : Backend;
  console : Console
}.

(** Modelled from the spec: the two store-error policies of the Guard,
    "fail-open: treat a store error as Allow, but surface the error for
    observability" and the strict mode that "may instead propagate the
    error as fatal". *)
Definition failOpen : StoreErrorHandler :=
  fun error env console =>
    (Returned tt, console_error "Brute-force store error:" error console).

Definition failStrict : StoreErrorHandler :=
  fun error env console =>
    (Threw error, console_error "Brute-force store error:" error console).

(** Modelled from the spec: which policy a guard runs on a store error.
    The handler the guard was constructed with, when it has one; otherwise
    the default, fail-open unless the strict toggle is set. *)
Definition storeErrorPolicy (strict : bool) (g : ExpressBrute)
  : StoreErrorHandler :=
  match handleStoreError (options g) with
  | Some h => h
  | None => if strict then failStrict else failOpen
  end.

(** Modelled from the spec: "check(key, tier) -> Allow |
    Block(retryAfterSeconds)", retryAfterSeconds "integer,
    ceiling-rounded". *)
Definition retryAfter (now : Z) (v : Verdict) : Verdict :=
  match v with
  | Allow => Allow
  | Block nextValidAt => Block (ceil_div (nextValidAt - now) 1000)
  end.

(** Modelled from the spec: Guard.check, "reads current record via
    Store.get, evaluates BackoffPolicy.decide". *)
Definition check (strict : bool) (g : ExpressBrute) (env : ProcessEnv)
    (key : string) (now : Z) (w : World) : Completion Verdict * World :=
  match store_get key (db w) with
  | inr r =>
      (Returned (retryAfter now (decide (live now r) (options g) now)), w)
  | inl e =>
      match storeErrorPolicy strict g e env (console w) with
      | (Returned _, c) => (Returned Allow, {| db := db w; console := c |})
      | (Threw e', c) => (Threw e', {| db := db w; console := c |})
      end
  end.

(** Modelled from the spec: Guard.recordFailure, "calls
    Store.incrementAndGet(key, now, tier.lifetime). Side effect only". *)
Definition recordFailure (strict : bool) (g : ExpressBrute) (env : ProcessEnv)
    (key : string) (now : Z) (w : World) : Completion unit * World :=
  match incrementAndGet key now (lifetime (options g) * 1000) (db w) with
  | inr (_, b) => (Returned tt, {| db := b; console := console w |})
  | inl e =>
      match storeErrorPolicy strict g e env (console w) with
      | (Returned _, c) => (Returned tt, {| db := db w; console := c |})
      | (Threw e', c) => (Threw e', {| db := db w; console := c |})
      end
  end.

(** Modelled from the spec: Guard.recordSuccess, "calls Store.reset(key)". *)
Definition recordSuccess (strict : bool) (g : ExpressBrute) (env : ProcessEnv)
    (key : string) (w : World) : Completion unit * World :=
  match store_reset key (db w) with
  | inr b => (Returned tt, {| db := b; console := console w |})
  | inl e =>
      match storeErrorPolicy strict g e env (console w) with
      | (Returned _, c) => (Returned tt, {| db := db w; console := c |})
      | (Threw e', c) => (Threw e', {| db := db w; console := c |})
      end
  end.

(** [n] checks in a row, at the times of [nows]. *)
Fixpoint checks (strict : bool) (g : ExpressBrute) (env : ProcessEnv)
    (key : string) (nows : list Z) (w : World) : World :=
  match nows with
  | [] => w
  | now :: rest =>
      checks strict g env key rest (snd (check strict g env key now w))
  end.

(** ** Readings of the block output *)

(** The structured decision of the guard contract: [blocked=true] and
    [retryAfterSeconds], ceiling-rounded, with a message. *)
Definition structured_block_decision (now nextValidAt : Z) (body : JsObject)
  : Prop :=
  field "blocked" body = Some (JsBool true)
  /\ field "retryAfterSeconds" body
     = Some (JsNumber (ceil_div (nextValidAt - now) 1000))
  /\ exists m, field "message" body = Some (JsString m).

(** The message a tier renders for a wait of [waitTime] minutes. *)
Definition tier_message (t : Tier) (waitTime : Z) : string :=
  match t with
  | Login =>
      "Too many failed login attempts. Please try again in "
        +:+ number_to_string waitTime +:+ " minute(s)."
  | Global => "Too many requests from this IP. Please slow down."
  | Registration =>
      "Too many registration attempts. Please try again in "
        +:+ number_to_string waitTime +:+ " minute(s)."
  | Payment =>
      "Payment creation rate limit exceeded. Please wait before creating another payment."
  end.

Definition fresh_exchange : Exchange :=
  {| res := {| statusCode := 200; jsonBody := None |}; nextCalls := 0 |}.

(** [n] failures recorded in a row at time [now]; a throw stops the run. *)
Fixpoint recordFailures (n : nat) (strict : bool) (g : ExpressBrute)
    (env : ProcessEnv) (key : string) (now : Z) (w : World) : World :=
  match n with
  | O => w
  | S k =>
      match recordFailure strict g env key now w with
      | (Returned _, w') => recordFailures k strict g env key now w'
      | (Threw _, w') => w'
      end
  end.

Definition empty_world : World :=
  {| db := {| collection := ∅; outage := None |}; console := [] |}.

(** ** Reading the module's effects *)

(** The [message] a callback has sent, when it sent one. *)
Definition message_of (ex : Exchange) : option string :=
  match jsonBody (res ex) with
  | Some body =>
      match field "message" body with
      | Some (JsString m) => Some m
      | _ => None
      end
  | None => None
  end.

(** A handler called once per store error, each call under the environment
    of its time; the completions are collected in order. *)
Fixpoint handle_each (h : StoreErrorHandler)
    (errors : list (StoreError * ProcessEnv)) (c : Console)
  : list (Completion unit) * Console :=
  match errors with
  | [] => ([], c)
  | (e, env) :: rest =>
      let '(r, c1) := h e env c in
      let '(rs, c2) := handle_each h rest c1 in
      (r :: rs, c2)
  end.

(** The model the module registers when none is registered yet. *)
Definition freshBruteForceModel : Model :=
  {| modelName := "BruteForce"; schema := bruteForceSchema |}.

(** The registry entry under a name, when there is a registry. *)
Definition registered (name : string) (rt : Runtime) : option Model :=
  models rt ≫= fun ms => ms !! name.

(** * Properties *)

(** ** Loading the module *)

Lemma load_module_options (rt : Runtime) (t : Tier) :
  options (guard_of (fst (load_module rt)) t) = tier_options t.
Proof.
  unfold load_module.
  destruct (models rt) as [ms|]; [destruct (ms !! "BruteForce"%string)|];
    destruct t; reflexivity.
Qed.

Lemma load_module_store (rt : Runtime) (t : Tier) :
  store (guard_of (fst (load_module rt)) t) = length (stores rt).
Proof.
  unfold load_module.
  destruct (models rt) as [ms|]; [destruct (ms !! "BruteForce"%string)|];
    destruct t; reflexivity.
Qed.

(** C3. The four exported guards carry exactly these options: free retries
    5/100/3/10, minimum wait 5 min/1 min/10 min/5 min, maximum wait
    1 h/15 min/2 h/30 min (milliseconds), lifetime 24 h/1 h/24 h/1 h
    (seconds), for login/global/registration/payment. *)
Theorem tiers_configured (rt : Runtime) :
  let m := fst (load_module rt) in
  tier_numbers (options (loginBruteForce m))
    = (5, minutes_ms 5, hours_ms 1, hours_s 24)
  /\ tier_numbers (options (globalBruteForce m))
    = (100, minutes_ms 1, minutes_ms 15, hours_s 1)
  /\ tier_numbers (options (registrationBruteForce m))
    = (3, minutes_ms 10, hours_ms 2, hours_s 24)
  /\ tier_numbers (options (paymentBruteForce m))
    = (10, minutes_ms 5, minutes_ms 30, hours_s 1).
Proof.
  intros m.
  pose proof (load_module_options rt Login) as HL.
  pose proof (load_module_options rt Global) as HG.
  pose proof (load_module_options rt Registration) as HR.
  pose proof (load_module_options rt Payment) as HP.
  cbn [guard_of] in HL, HG, HR, HP. subst m.
  rewrite HL, HG, HR, HP. repeat split; reflexivity.
Qed.

(** C8. Loading the module allocates exactly one store, over the model
    registered as BruteForce (reused when it is already registered), and
    every exported guard refers to that one store. *)
Theorem guards_share_one_store (rt : Runtime) :
  let m := fst (load_module rt) in
  let rt' := snd (load_module rt) in
  exists s : MongooseStore,
    stores rt' = stores rt ++ [s]
    /\ (models rt' ≫= fun ms => ms !! "BruteForce"%string) = Some (model s)
    /\ (forall t, stores rt' !! store (guard_of m t) = Some s)
    /\ (forall t1 t2, store (guard_of m t1) = store (guard_of m t2)).
Proof.
  intros m rt'.
  assert (Hst : forall t, store (guard_of m t) = length (stores rt))
    by (intros t; apply load_module_store).
  assert (Hshape : exists s, stores rt' = stores rt ++ [s]
            /\ (models rt' ≫= fun ms => ms !! "BruteForce"%string)
               = Some (model s)).
  { subst rt'. unfold load_module.
    destruct (models rt) as [ms|] eqn:Hms.
    - destruct (ms !! "BruteForce"%string) as [bf|] eqn:Hbf.
      + exists {| model := bf |}. cbn. rewrite Hms. cbn. auto.
      + eexists. cbn. split; [reflexivity|]. apply lookup_insert_eq.
    - eexists. cbn. split; [reflexivity|]. apply lookup_insert_eq. }
  destruct Hshape as (s & Hs & Hm). exists s.
  split; [exact Hs|]. split; [exact Hm|]. split.
  - intros t. rewrite Hst, Hs.
    rewrite lookup_app_r by lia. by rewrite Nat.sub_diag.
  - intros t1 t2. by rewrite !Hst.
Qed.

(** ** The store-error handler of the login guard *)

Lemma loginHandleStoreError_returns (error : StoreError) (env : ProcessEnv)
    (c : Console) :
  loginHandleStoreError error env c
  = (Returned tt, console_error "Express-brute store error:" error c).
Proof.
  unfold loginHandleStoreError.
  destruct (env_is (NODE_ENV env) "test" || env_truthy (CI env)); reflexivity.
Qed.

(** C9. The store-error handler of the login guard returns normally on
    every store error, and two runs that differ only in NODE_ENV and CI
    end the same way, with the same console output. *)
Theorem login_handleStoreError_ignores_env (rt : Runtime) (error : StoreError)
    (env1 env2 : ProcessEnv) (c : Console) :
  exists h,
    handleStoreError (options (loginBruteForce (fst (load_module rt))))
      = Some h
    /\ fst (h error env1 c) = Returned tt
    /\ h error env1 c = h error env2 c.
Proof.
  exists loginHandleStoreError.
  pose proof (load_module_options rt Login) as HL. cbn [guard_of] in HL.
  rewrite HL. split; [reflexivity|].
  rewrite !loginHandleStoreError_returns. split; reflexivity.
Qed.

(** ** The fail callbacks *)

Lemma ceil_div_bounds (a b : Z) :
  0 < b -> b * (ceil_div a b - 1) < a <= b * ceil_div a b.
Proof.
  intros Hb. unfold ceil_div.
  pose proof (Z.div_mod (- a) b ltac:(lia)) as Hdm.
  pose proof (Z.mod_pos_bound (- a) b Hb) as Hm.
  nia.
Qed.

Lemma failCallback_response (t : Tier) (req : Request) (ex : Exchange)
    (nextValidRequestDate now : Z) :
  failCallback (tier_options t) req ex nextValidRequestDate now
  = {| res :=
         {| statusCode := 429;
            jsonBody := Some
              (("success", JsBool false)
               :: ("message",
                   JsString (tier_message t
                      (ceil_div (nextValidRequestDate - now) (1000 * 60))))
               :: match t with
                  | Login =>
                      [("nextValidRequestDate", JsDate nextValidRequestDate)]
                  | _ => []
                  end)%string |};
       nextCalls := nextCalls ex |}.
Proof. destruct t; reflexivity. Qed.

(** C10. For every tier, the fail callback answers with status 429 and a
    JSON body whose [success] is false, and does not call [next]. *)
Theorem failCallback_rejects (rt : Runtime) (t : Tier) (req : Request)
    (ex : Exchange) (nextValidRequestDate now : Z) :
  let g := guard_of (fst (load_module rt)) t in
  let ex' := failCallback (options g) req ex nextValidRequestDate now in
  statusCode (res ex') = 429
  /\ (exists body, jsonBody (res ex') = Some body
        /\ field "success" body = Some (JsBool false))
  /\ nextCalls ex' = nextCalls ex.
Proof.
  intros g ex'. subst g ex'.
  rewrite load_module_options, failCallback_response. cbn.
  split; [reflexivity|]. split; [|reflexivity].
  eexists. split; reflexivity.
Qed.

(** C6, as stated, fails: the body the login guard sends for a block due
    in five minutes has no [blocked] and no [retryAfterSeconds] property. *)
Lemma block_output_not_structured :
  exists body,
    jsonBody (res (failCallback loginOptions {| ip := "1.2.3.4"; path := "/login" |}
                     fresh_exchange 300000 0)) = Some body
    /\ field "blocked" body = None
    /\ field "retryAfterSeconds" body = None
    /\ ~ structured_block_decision 0 300000 body.
Proof.
  eexists. split; [reflexivity|]. split; [reflexivity|].
  split; [reflexivity|].
  intros (Hb & _). discriminate Hb.
Qed.

(** C6, amended. For every tier, a blocked request is answered with status
    429 and a JSON body with [success] false and the tier's message; the
    body has no [blocked] and no [retryAfterSeconds] property. The login
    and registration messages give the wait in minutes, rounded up: the
    least number of whole minutes that covers the time left. Only the
    login body also carries [nextValidRequestDate]. *)
Theorem block_output_shape (rt : Runtime) (t : Tier) (req : Request)
    (ex : Exchange) (nextValidRequestDate now : Z) :
  let g := guard_of (fst (load_module rt)) t in
  let ex' := failCallback (options g) req ex nextValidRequestDate now in
  let waitTime := ceil_div (nextValidRequestDate - now) (1000 * 60) in
  statusCode (res ex') = 429
  /\ (exists body, jsonBody (res ex') = Some body
        /\ field "success" body = Some (JsBool false)
        /\ field "message" body = Some (JsString (tier_message t waitTime))
        /\ field "blocked" body = None
        /\ field "retryAfterSeconds" body = None
        /\ field "nextValidRequestDate" body
           = match t with
             | Login => Some (JsDate nextValidRequestDate)
             | _ => None
             end)
  /\ 60000 * (waitTime - 1) < nextValidRequestDate - now <= 60000 * waitTime.
Proof.
  intros g ex' waitTime. subst g ex'.
  rewrite load_module_options, failCallback_response. cbn [res statusCode jsonBody].
  split; [reflexivity|]. split.
  - eexists. split; [reflexivity|].
    destruct t; repeat split; reflexivity.
  - subst waitTime. change (1000 * 60) with 60000.
    apply ceil_div_bounds. lia.
Qed.

(** ** The backoff policy *)

Lemma wait_mono (t : Options) (o1 o2 : Z) :
  0 <= minWait t -> o1 <= o2 -> wait t o1 <= wait t o2.
Proof.
  intros Hmin Hle. unfold wait.
  apply Z.min_le_compat_l, Z.mul_le_mono_nonneg_l; [exact Hmin|].
  apply Z.pow_le_mono_r; lia.
Qed.

(** The login scenario: five free failures, then 5, 10, 20, 40 minutes and
    the one-hour ceiling. *)
Example login_free_retries :
  decide (Some {| data := {| count := 5; lastRequest := 0; firstRequest := 0 |};
                  expires := 86400000 |}) loginOptions 0 = Allow.
Proof. reflexivity. Qed.

Example login_sixth_failure_blocks :
  decide (Some {| data := {| count := 6; lastRequest := 0; firstRequest := 0 |};
                  expires := 86400000 |}) loginOptions (minutes_ms 4)
  = Block (minutes_ms 5).
Proof. reflexivity. Qed.

Example login_window_elapsed :
  decide (Some {| data := {| count := 6; lastRequest := 0; firstRequest := 0 |};
                  expires := 86400000 |}) loginOptions (minutes_ms 6) = Allow.
Proof. reflexivity. Qed.

Example login_seventh_failure_doubles :
  decide (Some {| data := {| count := 7; lastRequest := minutes_ms 6;
                             firstRequest := 0 |};
                  expires := 86400000 |}) loginOptions (minutes_ms 6)
  = Block (minutes_ms 6 + minutes_ms 10).
Proof. reflexivity. Qed.

Example login_wait_saturates :
  map (wait loginOptions) [1; 2; 3; 4; 5; 6; 50]
  = [minutes_ms 5; minutes_ms 10; minutes_ms 20; minutes_ms 40;
     hours_ms 1; hours_ms 1; hours_ms 1].
Proof. reflexivity. Qed.

(** Six failed logins at time 0, checked four minutes later: blocked for
    another sixty seconds, and the stored count is still six. *)
Example login_guard_run :
  let g := new_ExpressBrute 0%nat loginOptions in
  let env := {| NODE_ENV := None; CI := None |} in
  let w := recordFailures 6 false g env "login:1.2.3.4" 0 empty_world in
  fst (check false g env "login:1.2.3.4" (minutes_ms 4) w)
    = Returned (Block 60)
  /\ (count ∘ data) <$> (collection (db w) !! "login:1.2.3.4"%string) = Some 6.
Proof. vm_compute. split; reflexivity. Qed.

Lemma check_db (strict : bool) (g : ExpressBrute) (env : ProcessEnv)
    (key : string) (now : Z) (w : World) :
  db (snd (check strict g env key now w)) = db w.
Proof.
  unfold check. destruct (store_get key (db w)) as [e|r]; [|reflexivity].
  destruct (storeErrorPolicy strict g e env (console w)) as [[u|e'] c];
    reflexivity.
Qed.

(** C1. The backoff decision: Allow for an absent record or a count within
    the free retries; beyond them, with [overage = count - freeRetries] and
    [wait = min(maxWait, minWait * 2^(overage - 1))], Allow once
    [now >= lastRequest + wait] and Block(lastRequest + wait) before. The
    wait never decreases as the overage grows, and a check leaves the
    stored record, hence its count, as it was. *)
Theorem backoff_decision (t : Options) (now : Z) :
  valid_tier t ->
  decide None t now = Allow
  /\ (forall d, count (data d) <= freeRetries t ->
        decide (Some d) t now = Allow)
  /\ (forall d, freeRetries t < count (data d) ->
        let overage := count (data d) - freeRetries t in
        let wt := Z.min (maxWait t) (minWait t * 2 ^ (overage - 1)) in
        (lastRequest (data d) + wt <= now -> decide (Some d) t now = Allow)
        /\ (now < lastRequest (data d) + wt ->
              decide (Some d) t now = Block (lastRequest (data d) + wt)))
  /\ (forall o1 o2, o1 <= o2 -> wait t o1 <= wait t o2)
  /\ (forall strict g env key w,
        options g = t ->
        db (snd (check strict g env key now w)) = db w).
Proof.
  intros (_ & Hmin & _ & _).
  split; [reflexivity|]. split.
  { intros d Hle. unfold decide.
    destruct (Z.leb_spec (count (data d)) (freeRetries t)); [reflexivity|lia]. }
  split.
  { intros d Hlt overage wt. unfold decide.
    destruct (Z.leb_spec (count (data d)) (freeRetries t)); [lia|].
    fold overage. change (wait t overage) with wt.
    split; intros Hnow;
      destruct (Z.leb_spec (lastRequest (data d) + wt) now);
      (reflexivity || lia). }
  split.
  { intros o1 o2 Hle. apply wait_mono; lia. }
  intros strict g env key w _. apply check_db.
Qed.

(** The sixth failed login at time 0, looked at one minute later. *)
Lemma backoff_decision_witness :
  valid_tier loginOptions
  /\ decide (Some {| data := {| count := 6; lastRequest := 0;
                               firstRequest := 0 |};
                     expires := 86400000 |}) loginOptions 60000
     = Block 300000.
Proof.
  assert (Hv : valid_tier loginOptions) by (unfold valid_tier; cbn; lia).
  split; [exact Hv|].
  destruct (backoff_decision loginOptions 60000 Hv) as (_ & _ & Hover & _).
  apply (Hover {| data := {| count := 6; lastRequest := 0; firstRequest := 0 |};
                  expires := 86400000 |}); cbn; lia.
Defined.

(** ** The guard *)

Lemma checks_db (strict : bool) (g : ExpressBrute) (env : ProcessEnv)
    (key : string) (nows : list Z) (w : World) :
  db (checks strict g env key nows w) = db w.
Proof.
  revert w. induction nows as [|now rest IH]; intros w; [reflexivity|].
  cbn [checks]. rewrite IH. apply check_db.
Qed.

Lemma exported_policy_fail_open (rt : Runtime) (t : Tier) (e : StoreError)
    (env : ProcessEnv) (c : Console) :
  exists l,
    storeErrorPolicy false (guard_of (fst (load_module rt)) t) e env c
    = (Returned tt, c ++ [{| label := l; cause := e |}]).
Proof.
  unfold storeErrorPolicy. rewrite load_module_options.
  destruct t; cbn [tier_options handleStoreError loginOptions globalOptions
                   registrationOptions paymentOptions].
  - eexists. apply loginHandleStoreError_returns.
  - eexists. reflexivity.
  - eexists. reflexivity.
  - eexists. reflexivity.
Qed.

(** C7. A check never changes the store: after any number of checks of a
    key the backend, and so the record under every key with its count,
    firstRequest, lastRequest and expires, is what it was before; and for
    the exported guards a check repeated at the same time gives the same
    answer. *)
Theorem check_never_mutates (strict : bool) (g : ExpressBrute)
    (env : ProcessEnv) (key : string) (nows : list Z) (w : World) :
  db (checks strict g env key nows w) = db w
  /\ (forall k, collection (db (checks strict g env key nows w)) !! k
                = collection (db w) !! k)
  /\ (forall rt t now,
        let g' := guard_of (fst (load_module rt)) t in
        fst (check strict g' env key now (snd (check strict g' env key now w)))
        = fst (check strict g' env key now w)).
Proof.
  split; [apply checks_db|]. split.
  { intros k. by rewrite checks_db. }
  intros rt t now g'. subst g'.
  unfold check. destruct (store_get key (db w)) as [e|r] eqn:Hget.
  - assert (Hpol : exists r, forall c, exists c',
      storeErrorPolicy strict (guard_of (fst (load_module rt)) t) e env c
      = (r, c')).
    { unfold storeErrorPolicy. rewrite load_module_options.
      destruct t; cbn [tier_options handleStoreError loginOptions
                       globalOptions registrationOptions paymentOptions].
      - exists (Returned tt). intros c. eexists.
        apply loginHandleStoreError_returns.
      - destruct strict; eexists; intros c; eexists; reflexivity.
      - destruct strict; eexists; intros c; eexists; reflexivity.
      - destruct strict; eexists; intros c; eexists; reflexivity. }
    destruct Hpol as (r & Hpol).
    destruct (Hpol (console w)) as (c1 & Hc1). rewrite Hc1.
    destruct r as [u|e']; cbn; rewrite Hget;
      destruct (Hpol c1) as (c2 & Hc2); rewrite Hc2; reflexivity.
  - cbn. rewrite Hget. reflexivity.
Qed.

(** C2. Under the default policy, when the store fails, check answers
    Allow and recordFailure returns, neither throws, for each of the four
    guards; the store is left alone and the error is written to the
    console. *)
Theorem store_outage_fails_open (rt : Runtime) (t : Tier) (env : ProcessEnv)
    (key : string) (now : Z) (w : World) (e : StoreError) :
  outage (db w) = Some e ->
  let g := guard_of (fst (load_module rt)) t in
  (exists l,
     check false g env key now w
     = (Returned Allow,
        {| db := db w;
           console := console w ++ [{| label := l; cause := e |}] |}))
  /\ (exists l,
        recordFailure false g env key now w
        = (Returned tt,
           {| db := db w;
              console := console w ++ [{| label := l; cause := e |}] |})).
Proof.
  intros Hout g. subst g.
  destruct (exported_policy_fail_open rt t e env (console w)) as (l & Hl).
  split; exists l.
  - unfold check, store_get. rewrite Hout, Hl. reflexivity.
  - unfold recordFailure, incrementAndGet. rewrite Hout, Hl. reflexivity.
Qed.

Lemma store_outage_fails_open_witness :
  let w := {| db := {| collection := ∅; outage := Some StoreTimeout |};
              console := [] |} in
  let env := {| NODE_ENV := Some "production"%string; CI := None |} in
  let g := guard_of (fst (load_module {| models := None; stores := [] |}))
             Global in
  outage (db w) = Some StoreTimeout
  /\ exists l,
      check false g env "10.0.0.7" 0 w
      = (Returned Allow,
         {| db := db w; console := [{| label := l; cause := StoreTimeout |}] |}).
Proof.
  intros w env g. split; [reflexivity|].
  exact (proj1 (store_outage_fails_open {| models := None; stores := [] |}
                  Global env "10.0.0.7" 0 w StoreTimeout eq_refl)).
Defined.

(** ** Expiry *)

Lemma live_expired (now : Z) (d : BruteForceDoc) :
  expires d <= now -> live now (Some d) = None.
Proof.
  intros H. unfold live. destruct (Z.leb_spec (expires d) now); [reflexivity|lia].
Qed.

Lemma ttl_sweep_lookup (s : Schema) (now : Z) (c : gmap string BruteForceDoc)
    (key : string) (d : BruteForceDoc) :
  ttl_sweep s now (<[key := d]> c) !! key
  = if ttl_due s now d then None else Some d.
Proof.
  unfold ttl_sweep. destruct (ttl_due s now d) eqn:Hdue.
  - apply map_lookup_filter_None. right. intros x Hx.
    rewrite lookup_insert_eq in Hx. injection Hx as <-. cbn. congruence.
  - apply map_lookup_filter_Some. split; [apply lookup_insert_eq|exact Hdue].
Qed.

(** C4, as stated, fails on the purge: a global-tier record that expired a
    second ago is still in the collection after the time-to-live sweep. *)
Lemma expired_record_still_stored :
  let d := {| data := {| count := 101; lastRequest := 0; firstRequest := 0 |};
              expires := 0 + lifetime globalOptions * 1000 |} in
  let now := 3601000 in
  expires d <= now
  /\ ttl_sweep bruteForceSchema now {[ "10.0.0.7"%string := d ]}
       !! "10.0.0.7"%string = Some d.
Proof.
  intros d now. split; [subst d now; cbn; lia|].
  rewrite <- insert_empty, ttl_sweep_lookup. reflexivity.
Qed.

(** C4, amended. A record whose [expires] is at or before [now] never
    influences a decision: a check answers as if the key had no record,
    which on a reachable store is Allow, and the next recorded failure
    starts a new window with count 1, firstRequest = lastRequest = now and
    expires = firstRequest + lifetime. The time-to-live index purges the
    record once its [expires] plus one day has passed, not as soon as
    [expires] passes. *)
Theorem expired_record_is_absent (strict : bool) (g : ExpressBrute)
    (env : ProcessEnv) (key : string) (now : Z) (w : World)
    (d : BruteForceDoc) :
  expires d <= now ->
  let c := collection (db w) in
  let stored := {| db := with_collection (<[key := d]> c) (db w);
                   console := console w |} in
  let absent := {| db := with_collection (delete key c) (db w);
                   console := console w |} in
  let restarted :=
    {| data := {| count := 1; lastRequest := now; firstRequest := now |};
       expires := now + lifetime (options g) * 1000 |} in
  fst (check strict g env key now stored)
    = fst (check strict g env key now absent)
  /\ (outage (db w) = None ->
      fst (check strict g env key now stored) = Returned Allow)
  /\ (outage (db w) = None ->
      snd (recordFailure strict g env key now stored)
        = snd (recordFailure strict g env key now absent)
      /\ collection (db (snd (recordFailure strict g env key now stored)))
           !! key = Some restarted)
  /\ (forall now',
        ttl_sweep bruteForceSchema now' (<[key := d]> c) !! key
        = if expires d + one_day_seconds * 1000 <=? now' then None
          else Some d).
Proof.
  intros Hexp c stored absent restarted. split; [|split; [|split]].
  - subst stored absent. unfold check, store_get. cbn [db outage with_collection].
    destruct (outage (db w)) as [e|].
    { cbn [console].
      destruct (storeErrorPolicy strict g e env (console w)) as [[u|e'] c'];
        reflexivity. }
    unfold with_collection. cbn [collection fst].
    rewrite lookup_insert_eq, lookup_delete_eq.
    rewrite live_expired by exact Hexp. reflexivity.
  - intros Hup. subst stored. unfold check, store_get.
    unfold with_collection. cbn [db outage collection]. rewrite Hup.
    rewrite lookup_insert_eq, live_expired by exact Hexp. reflexivity.
  - intros Hup. subst stored absent restarted.
    unfold recordFailure, incrementAndGet.
    unfold with_collection. cbn [db outage collection console]. rewrite Hup.
    rewrite lookup_insert_eq, lookup_delete_eq.
    unfold incremented. rewrite live_expired by exact Hexp. cbn [live].
    rewrite insert_insert_eq, insert_delete_eq. cbn [snd db collection].
    split; [reflexivity|]. apply lookup_insert_eq.
  - intros now'. apply ttl_sweep_lookup.
Qed.

(** A global-tier record half a second past its expiry, on a reachable
    store: its 110 failures, the last ten seconds before the expiry, would
    block until 4490000 if the record still counted; the check allows. *)
Lemma expired_record_is_absent_witness :
  let d := {| data := {| count := 110; lastRequest := 3590000;
                         firstRequest := 0 |};
              expires := 0 + lifetime globalOptions * 1000 |} in
  let now := 3600500 in
  let w := {| db := {| collection := ∅; outage := None |}; console := [] |} in
  let g := new_ExpressBrute 0%nat globalOptions in
  let stored := {| db := with_collection (<[ "10.0.0.7"%string := d ]> ∅) (db w);
                   console := [] |} in
  expires d <= now
  /\ decide (Some d) globalOptions now = Block 4490000
  /\ fst (check false g {| NODE_ENV := None; CI := None |} "10.0.0.7" now
            stored)
     = Returned Allow.
Proof.
  intros d now w g stored.
  assert (Hexp : expires d <= now) by (subst d now; cbn; lia).
  split; [exact Hexp|]. split; [reflexivity|].
  exact (proj1 (proj2 (expired_record_is_absent false g
                         {| NODE_ENV := None; CI := None |} "10.0.0.7" now w d
                         Hexp)) eq_refl).
Defined.

(** * Further properties of the module *)

(** ** Loading: the model registry and the store objects *)

Lemma load_module_registered (rt : Runtime) (m : Model) :
  registered "BruteForce" rt = Some m ->
  snd (load_module rt)
  = {| models := models rt; stores := stores rt ++ [{| model := m |}] |}.
Proof.
  unfold registered, load_module. intros H.
  destruct (models rt) as [ms|] eqn:Hms; [|discriminate H]. cbn in H.
  rewrite H. cbn. by rewrite Hms.
Qed.

Lemma load_module_unregistered (rt : Runtime) :
  registered "BruteForce" rt = None ->
  snd (load_module rt)
  = {| models := Some (<["BruteForce"%string := freshBruteForceModel]>
                         (default ∅ (models rt)));
       stores := stores rt ++ [{| model := freshBruteForceModel |}] |}.
Proof.
  unfold registered, load_module. intros H.
  destruct (models rt) as [ms|] eqn:Hms; cbn in H.
  - rewrite H. cbn. by rewrite Hms.
  - cbn. by rewrite Hms.
Qed.

Lemma guard_store_lookup (rt : Runtime) (t : Tier) (s : MongooseStore) :
  (stores rt ++ [s]) !! store (guard_of (fst (load_module rt)) t) = Some s.
Proof.
  rewrite load_module_store, lookup_app_r by lia. by rewrite Nat.sub_diag.
Qed.

(** X1. When a model is already registered as BruteForce, loading the
    module leaves the registry exactly as it was and builds the store of
    all four guards over that registered model, whatever its schema is:
    nothing is registered a second time. *)
Theorem load_module_reuses_registered_model (rt : Runtime) (m : Model) :
  registered "BruteForce" rt = Some m ->
  let rt' := snd (load_module rt) in
  models rt' = models rt
  /\ forall t, stores rt' !! store (guard_of (fst (load_module rt)) t)
               = Some {| model := m |}.
Proof.
  intros H rt'. subst rt'. rewrite (load_module_registered rt m H).
  split; [reflexivity|]. intros t. apply guard_store_lookup.
Qed.

Lemma load_module_reuses_registered_model_witness :
  let other := {| modelName := "BruteForce";
                  schema := {| paths := []; ttlField := "expires";
                               ttlSeconds := 60 |} |} in
  let rt := {| models := Some {[ "BruteForce"%string := other ]};
               stores := [] |} in
  registered "BruteForce" rt = Some other
  /\ models (snd (load_module rt)) = models rt.
Proof.
  intros other rt.
  assert (H : registered "BruteForce" rt = Some other) by reflexivity.
  split; [exact H|].
  exact (proj1 (load_module_reuses_registered_model rt other H)).
Defined.

(** X2. When no model is registered as BruteForce (the registry is
    undefined or lacks the name), loading the module registers the model
    built from [bruteForceSchema] under that name and builds the store of
    all four guards over it. *)
Theorem load_module_registers_missing_model (rt : Runtime) :
  registered "BruteForce" rt = None ->
  let rt' := snd (load_module rt) in
  registered "BruteForce" rt' = Some freshBruteForceModel
  /\ schema freshBruteForceModel = bruteForceSchema
  /\ forall t, stores rt' !! store (guard_of (fst (load_module rt)) t)
               = Some {| model := freshBruteForceModel |}.
Proof.
  intros H rt'. subst rt'. rewrite (load_module_unregistered rt H).
  split; [apply lookup_insert_eq|]. split; [reflexivity|].
  intros t. apply guard_store_lookup.
Qed.

Lemma load_module_registers_missing_model_witness :
  let rt := {| models := None; stores := [] |} in
  registered "BruteForce" rt = None
  /\ registered "BruteForce" (snd (load_module rt))
     = Some freshBruteForceModel.
Proof.
  intros rt.
  assert (H : registered "BruteForce" rt = None) by reflexivity.
  split; [exact H|].
  exact (proj1 (load_module_registers_missing_model rt H)).
Defined.

(** X3. Loading the module disturbs nothing that was there: every store
    allocated before keeps its place, exactly one store is added, every
    model registered before (BruteForce included) is still registered as
    it was, and no name other than BruteForce changes. *)
Theorem load_module_frame (rt : Runtime) :
  let rt' := snd (load_module rt) in
  length (stores rt') = S (length (stores rt))
  /\ (forall i s, stores rt !! i = Some s -> stores rt' !! i = Some s)
  /\ (forall name m, registered name rt = Some m ->
                     registered name rt' = Some m)
  /\ (forall name, name <> "BruteForce"%string ->
                   registered name rt' = registered name rt).
Proof.
  intros rt'. subst rt'.
  destruct (registered "BruteForce" rt) as [bf|] eqn:Hbf.
  - rewrite (load_module_registered rt bf Hbf). cbn [stores].
    split; [rewrite length_app; cbn; lia|].
    split; [intros i s Hi; by apply lookup_app_l_Some|].
    split; [intros name m Hm; exact Hm|]. intros name _. reflexivity.
  - rewrite (load_module_unregistered rt Hbf). cbn [stores].
    split; [rewrite length_app; cbn; lia|].
    split; [intros i s Hi; by apply lookup_app_l_Some|].
    assert (Hother : forall name, name <> "BruteForce"%string ->
      registered name
        {| models := Some (<["BruteForce"%string := freshBruteForceModel]>
                             (default ∅ (models rt)));
           stores := stores rt ++ [{| model := freshBruteForceModel |}] |}
      = registered name rt).
    { intros name Hne. unfold registered. cbn.
      rewrite lookup_insert_ne by congruence.
      destruct (models rt); [reflexivity|apply lookup_empty]. }
    split; [|exact Hother].
    intros name m Hm. destruct (string_dec name "BruteForce") as [->|Hne].
    + congruence.
    + by rewrite Hother.
Qed.

(** X4. Loading the module a second time (a test run that evaluates it
    again) leaves the registry of the first load untouched and gives the
    second set of guards a store object of its own, next to the first one
    and over the same model. *)
Theorem load_module_twice (rt : Runtime) :
  let first := load_module rt in
  let second := load_module (snd first) in
  models (snd second) = models (snd first)
  /\ (exists s, stores (snd second) = stores rt ++ [s; s])
  /\ (forall t1 t2, store (guard_of (fst second) t2)
                    = S (store (guard_of (fst first) t1)))
  /\ (forall t, options (guard_of (fst second) t)
                = options (guard_of (fst first) t)).
Proof.
  intros first second. subst first second.
  assert (Hreg : exists m,
    registered "BruteForce" (snd (load_module rt)) = Some m
    /\ stores (snd (load_module rt)) = stores rt ++ [{| model := m |}]).
  { destruct (registered "BruteForce" rt) as [bf|] eqn:Hbf.
    - exists bf. rewrite (load_module_registered rt bf Hbf). auto.
    - exists freshBruteForceModel. rewrite (load_module_unregistered rt Hbf).
      split; [apply lookup_insert_eq|reflexivity]. }
  destruct Hreg as (m & Hm & Hst).
  rewrite (load_module_registered _ m Hm). cbn [models stores].
  split; [reflexivity|].
  split; [exists {| model := m |}; rewrite Hst, <- app_assoc; reflexivity|].
  split.
  - intros t1 t2. rewrite !load_module_store, Hst, length_app. cbn. lia.
  - intros t. by rewrite !load_module_options.
Qed.

(** ** The store-error handler over a run of errors *)

(** X5. However many store errors the login guard's handler is given, and
    whatever NODE_ENV and CI are at each call, every call returns and the
    console gains exactly one line per error, in order, each carrying its
    error; what was on the console before is kept. *)
Theorem login_handleStoreError_logs_each_error
    (errors : list (StoreError * ProcessEnv)) (c : Console) :
  handle_each loginHandleStoreError errors c
  = (map (fun _ => Returned tt) errors,
     c ++ map (fun ee => {| label := "Express-brute store error:";
                            cause := fst ee |}) errors).
Proof.
  revert c. induction errors as [|[e env] rest IH]; intros c.
  - cbn. by rewrite app_nil_r.
  - cbn [handle_each map fst]. rewrite loginHandleStoreError_returns, IH.
    unfold console_error. by rewrite <- app_assoc.
Qed.

(** X6. Of the four exported guards only the login guard is constructed
    with a store-error handler; global, registration and payment pass
    none. *)
Theorem only_login_handles_store_errors (rt : Runtime) (t : Tier) :
  handleStoreError (options (guard_of (fst (load_module rt)) t)) = None
  <-> t <> Login.
Proof.
  rewrite load_module_options.
  destruct t; cbn; split; intros H; congruence.
Qed.

(** ** What a block response tells the client *)

Lemma append_length (s1 s2 : string) :
  String.length (s1 +:+ s2) = (String.length s1 + String.length s2)%nat.
Proof.
  induction s1 as [|a s1 IH]; [reflexivity|].
  change (String a s1 +:+ s2) with (String a (s1 +:+ s2)).
  cbn [String.length]. by rewrite IH.
Qed.

Lemma append_cancel_r (s1 s2 suffix : string) :
  s1 +:+ suffix = s2 +:+ suffix -> s1 = s2.
Proof.
  revert s2. induction s1 as [|a s1 IH]; intros [|b s2] H.
  - reflexivity.
  - apply (f_equal String.length) in H. rewrite !append_length in H.
    cbn [String.length] in H. lia.
  - apply (f_equal String.length) in H. rewrite !append_length in H.
    cbn [String.length] in H. lia.
  - change (String a (s1 +:+ suffix) = String b (s2 +:+ suffix)) in H.
    injection H as -> H. f_equal. by apply IH.
Qed.

Lemma to_int_not_nil (n : Z) :
  Z.to_int n <> Decimal.Pos Decimal.Nil
  /\ Z.to_int n <> Decimal.Neg Decimal.Nil.
Proof.
  destruct n as [|p|p]; cbn; split; try discriminate;
    intros H; injection H as H; by apply DecimalPos.Unsigned.to_uint_nonnil in H.
Qed.

Lemma number_to_string_inj (a b : Z) :
  number_to_string a = number_to_string b -> a = b.
Proof.
  unfold number_to_string. intros H.
  destruct (to_int_not_nil a) as (Ha1 & Ha2).
  destruct (to_int_not_nil b) as (Hb1 & Hb2).
  pose proof (NilZero.isi _ Ha1 Ha2) as Ia.
  pose proof (NilZero.isi _ Hb1 Hb2) as Ib.
  rewrite H in Ia. rewrite Ia in Ib. injection Ib as Ib.
  by apply DecimalZ.to_int_inj.
Qed.

Lemma message_of_failCallback (t : Tier) (req : Request) (ex : Exchange)
    (nextValidRequestDate now : Z) :
  message_of (failCallback (tier_options t) req ex nextValidRequestDate now)
  = Some (tier_message t (ceil_div (nextValidRequestDate - now) (1000 * 60))).
Proof. rewrite failCallback_response. reflexivity. Qed.

Lemma tier_message_inj_tier (t1 t2 : Tier) (w1 w2 : Z) :
  tier_message t1 w1 = tier_message t2 w2 -> t1 = t2.
Proof.
  destruct t1, t2; intros H; try reflexivity;
    cbv [tier_message append] in H; discriminate H.
Qed.

Lemma tier_message_inj_minutes (t : Tier) (w1 w2 : Z) :
  t = Login \/ t = Registration ->
  tier_message t w1 = tier_message t w2 -> w1 = w2.
Proof.
  intros [-> | ->] H; unfold tier_message in H;
    apply (inj (String.append _)) in H;
    apply append_cancel_r in H;
    by apply number_to_string_inj.
Qed.

(** X7. The message of a block response names the guard that sent it: two
    exported guards whose responses carry the same message are the same
    tier, whatever the requests and times. *)
Theorem block_message_identifies_tier (rt : Runtime) (t1 t2 : Tier)
    (req1 req2 : Request) (ex1 ex2 : Exchange) (date1 date2 now1 now2 : Z) :
  let m := fst (load_module rt) in
  message_of (failCallback (options (guard_of m t1)) req1 ex1 date1 now1)
  = message_of (failCallback (options (guard_of m t2)) req2 ex2 date2 now2) ->
  t1 = t2.
Proof.
  intros m. subst m. rewrite !load_module_options, !message_of_failCallback.
  intros H. injection H as H. by apply tier_message_inj_tier in H.
Qed.

Lemma block_message_identifies_tier_witness :
  let m := fst (load_module {| models := None; stores := [] |}) in
  let req := {| ip := "10.0.0.7"; path := "/api/payments" |} in
  message_of (failCallback (options (guard_of m Payment)) req fresh_exchange
                600000 0)
  = message_of (failCallback (options (guard_of m Payment)) req fresh_exchange
                  900000 60000)
  /\ Payment = Payment.
Proof.
  intros m req.
  assert (H : message_of (failCallback (options (guard_of m Payment)) req
                            fresh_exchange 600000 0)
              = message_of (failCallback (options (guard_of m Payment)) req
                              fresh_exchange 900000 60000)) by reflexivity.
  split; [exact H|].
  exact (block_message_identifies_tier {| models := None; stores := [] |}
           Payment Payment req req fresh_exchange fresh_exchange
           600000 900000 0 60000 H).
Defined.

(** X8. The login and registration messages render the rounded-up minutes
    faithfully: two such responses carry the same message exactly when
    their minutes are the same. *)
Theorem block_message_renders_minutes (rt : Runtime) (t : Tier)
    (req1 req2 : Request) (ex1 ex2 : Exchange) (date1 date2 now1 now2 : Z) :
  t = Login \/ t = Registration ->
  let g := guard_of (fst (load_module rt)) t in
  message_of (failCallback (options g) req1 ex1 date1 now1)
  = message_of (failCallback (options g) req2 ex2 date2 now2)
  <-> ceil_div (date1 - now1) (1000 * 60) = ceil_div (date2 - now2) (1000 * 60).
Proof.
  intros Ht g. subst g. rewrite load_module_options, !message_of_failCallback.
  split.
  - intros H. injection H as H. by apply (tier_message_inj_minutes t).
  - intros ->. reflexivity.
Qed.

Lemma block_message_renders_minutes_witness :
  let g := guard_of (fst (load_module {| models := None; stores := [] |}))
             Login in
  let req := {| ip := "1.2.3.4"; path := "/login" |} in
  (Login = Login \/ Login = Registration)
  /\ message_of (failCallback (options g) req fresh_exchange 300000 1000)
     = message_of (failCallback (options g) req fresh_exchange 400000 130000).
Proof.
  intros g req.
  assert (Ht : Login = Login \/ Login = Registration) by (left; reflexivity).
  split; [exact Ht|].
  apply (block_message_renders_minutes {| models := None; stores := [] |}
           Login req req fresh_exchange fresh_exchange 300000 400000 1000
           130000 Ht).
  reflexivity.
Defined.

(** X9. While a block is still running and is no longer than the tier's
    maximum wait, the minutes a response names are at least 1 and at most
    the maximum wait in minutes: 1 to 60 for login, 1 to 120 for
    registration. A running block is never announced as 0 minutes. *)
Theorem block_minutes_in_range (rt : Runtime) (t : Tier) (req : Request)
    (ex : Exchange) (nextValidRequestDate now : Z) :
  let g := guard_of (fst (load_module rt)) t in
  let waitTime := ceil_div (nextValidRequestDate - now) (1000 * 60) in
  now < nextValidRequestDate ->
  nextValidRequestDate - now <= maxWait (options g) ->
  message_of (failCallback (options g) req ex nextValidRequestDate now)
    = Some (tier_message t waitTime)
  /\ 1 <= waitTime
  /\ waitTime * (1000 * 60) <= maxWait (options g)
  /\ (t = Login -> waitTime <= 60)
  /\ (t = Registration -> waitTime <= 120).
Proof.
  intros g waitTime Hrun Hmax. subst g.
  rewrite load_module_options in *.
  split; [apply message_of_failCallback|].
  pose proof (ceil_div_bounds (nextValidRequestDate - now) (1000 * 60)
                ltac:(lia)) as Hb.
  fold waitTime in Hb.
  assert (Hmin : 1 <= waitTime) by lia.
  split; [exact Hmin|].
  destruct t; cbn [tier_options maxWait loginOptions globalOptions
                   registrationOptions paymentOptions] in *;
    (split; [lia|]); split; intros Ht; try discriminate Ht; lia.
Qed.

Lemma block_minutes_in_range_witness :
  let g := guard_of (fst (load_module {| models := None; stores := [] |}))
             Registration in
  let req := {| ip := "1.2.3.4"; path := "/register" |} in
  0 < 600001
  /\ 600001 - 0 <= maxWait (options g)
  /\ message_of (failCallback (options g) req fresh_exchange 600001 0)
     = Some "Too many registration attempts. Please try again in 11 minute(s)."%string.
Proof.
  intros g req.
  assert (H1 : 0 < 600001) by lia.
  assert (H2 : 600001 - 0 <= maxWait (options g)) by (vm_compute; discriminate).
  split; [exact H1|]. split; [exact H2|].
  exact (proj1 (block_minutes_in_range {| models := None; stores := [] |}
                  Registration req fresh_exchange 600001 0 H1 H2)).
Defined.

(** X12. The minutes are not clamped: when the retry date has already
    passed as the callback runs, the login and registration responses name
    zero or a negative number of minutes, and exactly "0 minute(s)" when it
    passed less than a minute ago. *)
Theorem block_minutes_not_clamped (rt : Runtime) (t : Tier) (req : Request)
    (ex : Exchange) (nextValidRequestDate now : Z) :
  let g := guard_of (fst (load_module rt)) t in
  let waitTime := ceil_div (nextValidRequestDate - now) (1000 * 60) in
  t = Login \/ t = Registration ->
  nextValidRequestDate <= now ->
  message_of (failCallback (options g) req ex nextValidRequestDate now)
    = Some (tier_message t waitTime)
  /\ waitTime <= 0
  /\ (now - nextValidRequestDate < 1000 * 60 ->
      message_of (failCallback (options g) req ex nextValidRequestDate now)
      = Some (tier_message t 0)
      /\ number_to_string 0 = "0"%string).
Proof.
  intros g waitTime Ht Hpast. subst g.
  rewrite load_module_options, message_of_failCallback. fold waitTime.
  pose proof (ceil_div_bounds (nextValidRequestDate - now) (1000 * 60)
                ltac:(lia)) as Hb.
  fold waitTime in Hb.
  split; [reflexivity|]. split; [lia|].
  intros Hrecent. assert (waitTime = 0) as -> by lia.
  split; reflexivity.
Qed.

Lemma block_minutes_not_clamped_witness :
  let g := guard_of (fst (load_module {| models := None; stores := [] |}))
             Login in
  let req := {| ip := "1.2.3.4"; path := "/login" |} in
  (Login = Login \/ Login = Registration)
  /\ 300000 <= 300500
  /\ message_of (failCallback (options g) req fresh_exchange 300000 300500)
     = Some "Too many failed login attempts. Please try again in 0 minute(s)."%string.
Proof.
  intros g req.
  assert (Ht : Login = Login \/ Login = Registration) by (left; reflexivity).
  assert (Hp : 300000 <= 300500) by lia.
  split; [exact Ht|]. split; [exact Hp|].
  exact (proj1 (block_minutes_not_clamped {| models := None; stores := [] |}
                  Login req fresh_exchange 300000 300500 Ht Hp)).
Defined.

(** X10. What a block response depends on. No response depends on the
    request or on what the response held before. The global and payment
    responses do not depend on the retry date or the clock at all; the
    registration response depends on them only through the rounded-up
    minutes; two login responses are equal only if their
    [nextValidRequestDate] is the same. *)
Theorem block_response_dependence (rt : Runtime) (req1 req2 : Request)
    (ex1 ex2 : Exchange) (date1 date2 now1 now2 : Z) :
  let m := fst (load_module rt) in
  let reply t req ex date now :=
    res (failCallback (options (guard_of m t)) req ex date now) in
  (forall t, reply t req1 ex1 date1 now1 = reply t req2 ex2 date1 now1)
  /\ (forall t, t = Global \/ t = Payment ->
        reply t req1 ex1 date1 now1 = reply t req2 ex2 date2 now2)
  /\ (ceil_div (date1 - now1) (1000 * 60) = ceil_div (date2 - now2) (1000 * 60)
      <-> reply Registration req1 ex1 date1 now1
          = reply Registration req2 ex2 date2 now2)
  /\ (reply Login req1 ex1 date1 now1 = reply Login req2 ex2 date2 now2 ->
      date1 = date2).
Proof.
  intros m reply. subst reply m. cbv beta.
  split; [|split; [|split]].
  - intros t. by rewrite !load_module_options, !failCallback_response.
  - intros t [-> | ->]; by rewrite !load_module_options, !failCallback_response.
  - rewrite !load_module_options, !failCallback_response. cbn [res]. split.
    + intros ->. reflexivity.
    + intros H.
      apply (tier_message_inj_minutes Registration); [by right|congruence].
  - rewrite !load_module_options, !failCallback_response. cbn [res].
    intros H. by injection H.
Qed.

(** ** The tier configuration *)

(** X11. Every exported tier is well formed: at least one free retry, a
    positive minimum wait strictly below the maximum wait, both a whole
    number of minutes, and a lifetime (seconds) at least as long as the
    maximum wait (milliseconds). *)
Theorem exported_tiers_well_formed (rt : Runtime) (t : Tier) :
  let o := options (guard_of (fst (load_module rt)) t) in
  0 < freeRetries o
  /\ 0 < minWait o < maxWait o
  /\ minWait o mod (1000 * 60) = 0
  /\ maxWait o mod (1000 * 60) = 0
  /\ maxWait o <= lifetime o * 1000.
Proof.
  intros o. subst o. rewrite load_module_options.
  destruct t; vm_compute; repeat split; congruence.
Qed.
